(** * Voice Memos exporter: a shallow embedding of [main.py] and its properties

    The development follows the script from the point where the rows have
    been read from the database:

    - Python [str] values are UTF-8 byte strings ([string]); every operation
      the script applies to them ([startswith], [replace], the ASCII filter,
      [os.path.join], [os.path.dirname], [os.path.splitext]) acts on ASCII
      bytes only, which never occur inside a multi-byte sequence;
    - time stamps are exact integer counts of microseconds (the resolution
      of [datetime]); the local time zone is a fixed offset from UTC;
    - the file system is a finite map from path strings to nodes (two
      different strings are two different entries; links, access modes
      other than ownership, and full disks are left out);
    - the terminal is a list of pending key codes and a list of printed
      status cells (the fixed-width table layout is not modelled);
    - a computation is a state transformer that either returns a value or
      raises a Python exception.

    The database access, the creation of the export directory, the final
    summary and the call that opens the folder are outside the embedding. *)

From Stdlib Require Import ZArith Ascii String List Lia.
From stdpp Require Import base option list strings gmap.

#[local] Set Warnings "-clear-no-such-hyp".
Local Open Scope Z_scope.

(** ** Strings *)

Module Str.

Definition slash : ascii := "/"%char.
Definition dot : ascii := "."%char.
Definition underscore : ascii := "_"%char.

(** [s.startswith(c)] and [s.endswith(c)] for a one-character [c]. *)
Definition startswith (c : ascii) (s : string) : bool :=
  match s with
  | String a _ => bool_decide (a = c)
  | EmptyString => false
  end.

Fixpoint endswith (c : ascii) (s : string) : bool :=
  match s with
  | EmptyString => false
  | String a EmptyString => bool_decide (a = c)
  | String _ s' => endswith c s'
  end.

(** [c in s]. *)
Fixpoint contains (c : ascii) (s : string) : bool :=
  match s with
  | EmptyString => false
  | String a s' => bool_decide (a = c) || contains c s'
  end.

(** Python truthiness of a [str]. *)
Definition nonempty (s : string) : bool :=
  match s with EmptyString => false | String _ _ => true end.

(** [s[:n]] and [s[n:]] for [0 <= n]. *)
Fixpoint take (n : nat) (s : string) : string :=
  match n, s with
  | S n', String a s' => String a (take n' s')
  | _, _ => EmptyString
  end.

Fixpoint drop (n : nat) (s : string) : string :=
  match n, s with
  | S n', String _ s' => drop n' s'
  | _, _ => s
  end.

(** [s.rfind(c)]: the scan keeps the last index seen in [acc]. *)
Fixpoint rfind_from (c : ascii) (s : string) (i acc : Z) : Z :=
  match s with
  | EmptyString => acc
  | String a s' => rfind_from c s' (i + 1) (if bool_decide (a = c) then i else acc)
  end.

Definition rfind (c : ascii) (s : string) : Z := rfind_from c s 0 (-1).

(** [s.rstrip(c)]. *)
Fixpoint rstrip (c : ascii) (s : string) : string :=
  match s with
  | EmptyString => EmptyString
  | String a s' =>
      match rstrip c s' with
      | EmptyString => if bool_decide (a = c) then EmptyString else String a EmptyString
      | r => String a r
      end
  end.

(** [s == c * len(s)]. *)
Fixpoint all_eq (c : ascii) (s : string) : bool :=
  match s with
  | EmptyString => true
  | String a s' => bool_decide (a = c) && all_eq c s'
  end.

(** [s.replace(old, new)] for one-character [old] and [new]. *)
Fixpoint replace (old new : ascii) (s : string) : string :=
  match s with
  | EmptyString => EmptyString
  | String a s' => String (if bool_decide (a = old) then new else a) (replace old new s')
  end.

(** A byte of an ASCII character: the code points below 128. *)
Definition is_ascii (c : ascii) : bool := (N_of_ascii c <? 128)%N.

(** [s.encode('ascii', 'ignore').decode('ascii')]: every character that
    has no ASCII encoding is dropped. *)
Fixpoint encode_ascii_ignore (s : string) : string :=
  match s with
  | EmptyString => EmptyString
  | String a s' =>
      if is_ascii a then String a (encode_ascii_ignore s') else encode_ascii_ignore s'
  end.

(** [c * n]. *)
Fixpoint repeat (c : ascii) (n : nat) : string :=
  match n with
  | O => EmptyString
  | S n' => String c (repeat c n')
  end.

End Str.

(** ** [os.path] (posixpath) *)

Module OsPath.

(** [os.path.join(a, b)]. *)
Definition join (a b : string) : string :=
  if Str.startswith Str.slash b then b
  else if negb (Str.nonempty a) || Str.endswith Str.slash a then a +:+ b
  else a +:+ String Str.slash b.

(** [os.path.dirname(p)]. *)
Definition dirname (p : string) : string :=
  let i := Str.rfind Str.slash p + 1 in
  let head := Str.take (Z.to_nat i) p in
  if Str.nonempty head && negb (Str.all_eq Str.slash head)
  then Str.rstrip Str.slash head
  else head.

(** [os.path.splitext(p)[1]]: the extension starts at the last dot when
    that dot comes after the last separator and some character between
    them is not a dot. *)
Definition splitext_ext (p : string) : string :=
  let sepIndex := Str.rfind Str.slash p in
  let dotIndex := Str.rfind Str.dot p in
  if (sepIndex <? dotIndex)
     && negb (Str.all_eq Str.dot
                (Str.take (Z.to_nat (dotIndex - (sepIndex + 1)))
                   (Str.drop (Z.to_nat (sepIndex + 1)) p)))
  then Str.drop (Z.to_nat dotIndex) p
  else EmptyString.

End OsPath.

(** ** [datetime] and [time] *)

Module Time.

(** A naive [datetime]: its position, in microseconds, on the local time
    line, counted from 1970-01-01 00:00:00 local time. *)
Record datetime := Datetime { ticks : Z }.

Definition us_per_s : Z := 1000000.

(** Days since 1970-01-01 to (year, month, day) of the proleptic
    Gregorian calendar. *)
Definition civil_from_days (days : Z) : Z * Z * Z :=
  let z := days + 719468 in
  let era := z / 146097 in
  let doe := z - era * 146097 in
  let yoe := (doe - doe / 1460 + doe / 36524 - doe / 146096) / 365 in
  let doy := doe - (365 * yoe + yoe / 4 - yoe / 100) in
  let mp := (5 * doy + 2) / 153 in
  let d := doy - (153 * mp + 2) / 5 + 1 in
  let m := if mp <? 10 then mp + 3 else mp - 9 in
  let y := yoe + era * 400 in
  (if m <=? 2 then y + 1 else y, m, d).

Definition seconds (d : datetime) : Z := ticks d / us_per_s.
Definition microsecond (d : datetime) : Z := ticks d mod us_per_s.
Definition year (d : datetime) : Z := (civil_from_days (seconds d / 86400)).1.1.
Definition month (d : datetime) : Z := (civil_from_days (seconds d / 86400)).1.2.
Definition day (d : datetime) : Z := (civil_from_days (seconds d / 86400)).2.
Definition hour (d : datetime) : Z := (seconds d mod 86400) / 3600.
Definition minute (d : datetime) : Z := (seconds d mod 3600) / 60.
Definition second (d : datetime) : Z := seconds d mod 60.

Definition digit (n : Z) : ascii := ascii_of_N (48 + Z.to_N (n mod 10)).

(** Zero-padded decimal fields, as ["%02d"], ["%04d"] and ["%06d"]. *)
Definition pad2 (n : Z) : string :=
  String (digit (n / 10)) (String (digit n) EmptyString).
Definition pad4 (n : Z) : string := pad2 (n / 100) +:+ pad2 n.
Definition pad6 (n : Z) : string := pad2 (n / 10000) +:+ pad4 n.

(** The directives the script uses; any other directive is copied. *)
Definition directive (c : ascii) (d : datetime) : string :=
  if bool_decide (c = "Y"%char) then pad4 (year d)
  else if bool_decide (c = "m"%char) then pad2 (month d)
  else if bool_decide (c = "d"%char) then pad2 (day d)
  else if bool_decide (c = "H"%char) then pad2 (hour d)
  else if bool_decide (c = "M"%char) then pad2 (minute d)
  else if bool_decide (c = "S"%char) then pad2 (second d)
  else if bool_decide (c = "%"%char) then "%"
  else String "%"%char (String c EmptyString).

(** [d.strftime(fmt)]. *)
Fixpoint strftime (fmt : string) (d : datetime) : string :=
  match fmt with
  | EmptyString => EmptyString
  | String a rest =>
      if bool_decide (a = "%"%char) then
        match rest with
        | String c rest' => directive c d +:+ strftime rest' d
        | EmptyString => "%"
        end
      else String a (strftime rest d)
  end.

(** [str(d)]: ISO format with a space, the fraction only when non-zero. *)
Definition str (d : datetime) : string :=
  strftime "%Y-%m-%d %H:%M:%S" d
  +:+ (if microsecond d =? 0 then "" else "." +:+ pad6 (microsecond d)).

(** [datetime.fromtimestamp(t)] for a POSIX time [t] in microseconds, in
    a zone [utcoffset] seconds east of UTC. *)
Definition fromtimestamp (utcoffset : Z) (t : Z) : datetime :=
  Datetime (t + utcoffset * us_per_s).

(** [d.timetuple()]: the broken-down time has no sub-second field; it is
    represented by the whole local second. *)
Definition timetuple (d : datetime) : Z := seconds d.

(** [time.mktime(tt)]: local broken-down time to POSIX seconds. *)
Definition mktime (utcoffset : Z) (tt : Z) : Z := tt - utcoffset.

End Time.

Example strftime_epoch :
  Time.strftime "%d.%m.%Y %H:%M:%S" (Time.fromtimestamp 0 978307200825232)
  = "01.01.2001 00:00:00"%string.
Proof. vm_compute. reflexivity. Qed.

Example str_sample :
  Time.str (Time.fromtimestamp 3600 1700000000123456)
  = "2023-11-14 23:13:20.123456"%string.
Proof. vm_compute. reflexivity. Qed.

Example splitext_samples :
  OsPath.splitext_ext "/a.b/rec.m4a" = ".m4a"%string
  /\ OsPath.splitext_ext "/a.b/rec" = ""%string
  /\ OsPath.splitext_ext "/a/.hidden" = ""%string
  /\ OsPath.splitext_ext "/a/..x.y" = ".y"%string
  /\ OsPath.splitext_ext "rec." = "."%string.
Proof. vm_compute. repeat split. Qed.

Example dirname_samples :
  OsPath.dirname "/a/b/CloudRecordings.db" = "/a/b"%string
  /\ OsPath.dirname "/x" = "/"%string
  /\ OsPath.dirname "x" = ""%string
  /\ OsPath.dirname "/a//b" = "/a"%string
  /\ OsPath.dirname "//x" = "//"%string.
Proof. vm_compute. repeat split. Qed.

(** ** Exceptions and computations *)

Inductive exn_class :=
  | FileNotFoundError | IsADirectoryError | SameFileError
  | PermissionError | TypeError.

(** A raised exception; [exn_msg] is what [str(e)] returns. *)
Record exn := Exn { exn_cls : exn_class; exn_msg : string }.

Inductive result (A : Type) :=
  | Ok (a : A)
  | Raise (e : exn).
Arguments Ok {A} a.
Arguments Raise {A} e.

(** ** The world outside the script *)

(** A file keeps its bytes, its modification time (POSIX microseconds) and
    whether the user running the script owns it. *)
Inductive node :=
  | Dir
  | File (content : string) (mtime : Z) (owned : bool).

Record World := mkWorld {
  files : gmap string node;
  clock : Z;            (* POSIX time now, in microseconds *)
  utcoffset : Z;        (* local zone, seconds east of UTC *)
  stdin : list Z;       (* key codes still to be typed *)
  stdout : list string  (* status cells printed so far, oldest first *)
}.

Definition set_files (f : gmap string node) (w : World) : World :=
  mkWorld f (clock w) (utcoffset w) (stdin w) (stdout w).
Definition set_stdin (k : list Z) (w : World) : World :=
  mkWorld (files w) (clock w) (utcoffset w) k (stdout w).
Definition set_stdout (o : list string) (w : World) : World :=
  mkWorld (files w) (clock w) (utcoffset w) (stdin w) o.

(** The local variables of [main] that change in the loop. *)
Record State := mkState {
  world : World;
  failed_count : nat;
  success_count : nat
}.

(** A statement of the script: it changes the state and returns or raises. *)
Definition M (A : Type) : Type := State -> State * result A.

Definition ret {A} (a : A) : M A := fun st => (st, Ok a).
Definition raise {A} (e : exn) : M A := fun st => (st, Raise e).
Definition bind {A B} (m : M A) (k : A -> M B) : M B :=
  fun st =>
    match m st with
    | (st', Ok a) => k a st'
    | (st', Raise e) => (st', Raise e)
    end.

(** [try: body  except Exception as e: handler(e)]. *)
Definition try_except {A} (body : M A) (handler : exn -> M A) : M A :=
  fun st =>
    match body st with
    | (st', Ok a) => (st', Ok a)
    | (st', Raise e) => handler e st'
    end.

Notation "x <- m ;; k" := (bind m (fun x => k))
  (at level 100, m at next level, right associativity).
Notation "m ;;; k" := (bind m (fun _ => k))
  (at level 100, right associativity).

(** Run an operating-system call on the world. *)
Definition os_call {A} (f : World -> World * result A) : M A :=
  fun st =>
    let '(w, r) := f (world st) in
    (mkState w (failed_count st) (success_count st), r).

(** ** Operating-system calls *)

Module Os.

Definition errno_msg (text path : string) : string :=
  text +:+ ": '" +:+ path +:+ "'".

Definition ENOENT (p : string) : exn :=
  Exn FileNotFoundError (errno_msg "[Errno 2] No such file or directory" p).
Definition EISDIR (p : string) : exn :=
  Exn IsADirectoryError (errno_msg "[Errno 21] Is a directory" p).
Definition EPERM (p : string) : exn :=
  Exn PermissionError (errno_msg "[Errno 1] Operation not permitted" p).
Definition same_file (src dst : string) : exn :=
  Exn SameFileError ("'" +:+ src +:+ "' and '" +:+ dst +:+ "' are the same file").

(** [os.path.exists(p)]. *)
Definition path_exists (w : World) (p : string) : bool :=
  match files w !! p with Some _ => true | None => false end.

(** A new entry can be made at [p] when its directory exists; a relative
    name without a directory part lands in the current directory. *)
Definition parent_ok (w : World) (p : string) : bool :=
  match OsPath.dirname p with
  | EmptyString => true
  | d => match files w !! d with Some Dir => true | _ => false end
  end.

(** [open(p, mode).write(text)] for the modes ["w"] and ["a"]: [update]
    gives the new content from the old one. *)
Definition write_with (update : string -> string) (p : string) (w : World)
  : World * result unit :=
  match files w !! p with
  | Some Dir => (w, Raise (EISDIR p))
  | Some (File c _ o) =>
      (set_files (<[p := File (update c) (clock w) o]> (files w)) w, Ok tt)
  | None =>
      if parent_ok w p
      then (set_files (<[p := File (update EmptyString) (clock w) true]> (files w)) w, Ok tt)
      else (w, Raise (ENOENT p))
  end.

Definition open_w_write (p text : string) := write_with (fun _ => text) p.
Definition open_a_write (p text : string) := write_with (fun c => c +:+ text) p.

(** [shutil.copyfile(src, dst)]: the same-file test, then the source is
    opened for reading, then the destination for writing. *)
Definition copyfile (src dst : string) (w : World) : World * result unit :=
  match files w !! src with
  | None => (w, Raise (ENOENT src))
  | Some n =>
      if bool_decide (src = dst) then (w, Raise (same_file src dst))
      else match n with
           | Dir => (w, Raise (EISDIR src))
           | File c _ _ => open_w_write dst c w
           end
  end.

(** [os.utime(p, (t, t))] with [t] in whole seconds: only the owner may
    set explicit times. *)
Definition utime (p : string) (t : Z) (w : World) : World * result unit :=
  match files w !! p with
  | None => (w, Raise (ENOENT p))
  | Some Dir => (w, Ok tt)
  | Some (File c _ true) =>
      (set_files (<[p := File c (t * Time.us_per_s) true]> (files w)) w, Ok tt)
  | Some (File _ _ false) => (w, Raise (EPERM p))
  end.

(** [ord(sys.stdin.read(1))]: at end of input [read] returns [''] and
    [ord] raises. *)
Definition read_key (w : World) : World * result Z :=
  match stdin w with
  | k :: rest => (set_stdin rest w, Ok k)
  | [] => (w, Raise (Exn TypeError
                       "ord() expected a character, but string of length 0 found"))
  end.

(** [print(body_row((..., status)))], reduced to its status cell. *)
Definition print (status : string) (w : World) : World * result unit :=
  (set_stdout (stdout w ++ [status]) w, Ok tt).

End Os.

(** ** The script *)

Record Args := mkArgs {
  db_path : string;
  export_path : string;
  all : bool;
  date_in_name : bool;
  date_in_name_format : string
}.

(** A row of [ZCLOUDRECORDING]: [ZDATE] in microseconds, [ZDURATION] in
    seconds; the label and the path may be [NULL]. *)
Record Row := mkRow {
  ZDATE : Z;
  ZDURATION : Z;
  ZCUSTOMLABEL : option string;
  ZPATH : option string
}.

Definition _dt_offset : Z := 978307200825232.

(** The cleaning applied to a non-empty label. *)
Definition sanitize (s : string) : string :=
  Str.replace Str.slash Str.underscore (Str.encode_ascii_ignore s).

(** [label]: line 93. *)
Definition label_of (row : Row) : string :=
  match ZCUSTOMLABEL row with
  | Some s => if Str.nonempty s then sanitize s else "Untitled"
  | None => "Untitled"
  end.

(** [path_old_raw]: line 94. *)
Definition path_old_raw_of (row : Row) : string :=
  match ZPATH row with
  | Some s => s
  | None => EmptyString
  end.

(** [path_old]: lines 96 to 101 and 107. *)
Definition path_old_of (a : Args) (row : Row) : string :=
  let raw := path_old_raw_of row in
  if Str.nonempty raw then
    if negb (Str.startswith Str.slash raw)
    then OsPath.join (OsPath.dirname (db_path a)) raw
    else raw
  else EmptyString.

(** The file name before it is joined with the export path: lines 103, 104. *)
Definition file_name_of (a : Args) (date : Time.datetime) (row : Row) : string :=
  let path_new := label_of row +:+ OsPath.splitext_ext (path_old_of a row) in
  if date_in_name a then Time.strftime (date_in_name_format a) date +:+ path_new
  else path_new.

(** [path_new]: lines 103 to 105 and 108. *)
Definition path_new_of (a : Args) (date : Time.datetime) (row : Row) : string :=
  if Str.nonempty (path_old_raw_of row)
  then OsPath.join (export_path a) (file_name_of a date row)
  else EmptyString.

(** [log_path]: line 75. *)
Definition log_path (a : Args) : string :=
  OsPath.join (export_path a) "failed_exports.txt".

Definition log_header (now : Time.datetime) : string :=
  "Voice Memos Export Log - " +:+ Time.str now +:+ String "010"%char EmptyString
  +:+ Str.repeat "="%char 50 +:+ String "010"%char EmptyString.

(** Lines 76 to 78: the two [write] calls on the file opened with ["w"]. *)
Definition init_log (a : Args) : M unit :=
  os_call (fun w =>
    Os.open_w_write (log_path a)
      (log_header (Time.fromtimestamp (utcoffset w) (clock w))) w).

Definition missing_source : exn :=
  Exn FileNotFoundError "Audio file not found on disk (likely in iCloud)".

Definition log_line (date_str label reason : string) : string :=
  "FAILED: " +:+ date_str +:+ " | Memo: " +:+ label +:+ " | Reason: " +:+ reason
  +:+ String "010"%char EmptyString.

Definition incr_success : M unit :=
  fun st => (mkState (world st) (failed_count st) (S (success_count st)), Ok tt).
Definition incr_failed : M unit :=
  fun st => (mkState (world st) (S (failed_count st)) (success_count st), Ok tt).

(** Lines 128 to 135: the body of the [try]. *)
Definition export_body (path_old path_new : string) (date : Time.datetime) : M unit :=
  fun st =>
    (if negb (Str.nonempty path_old) || negb (Os.path_exists (world st) path_old)
     then raise missing_source
     else
       os_call (Os.copyfile path_old path_new) ;;;
       (let mod_time := Time.mktime (utcoffset (world st)) (Time.timetuple date) in
        os_call (Os.utime path_new mod_time)) ;;;
       os_call (Os.print "Success!") ;;;
       incr_success) st.

(** Lines 139 to 142: the [except Exception as e] handler. *)
Definition export_handler (a : Args) (date_str label : string) (e : exn) : M unit :=
  os_call (Os.open_a_write (log_path a) (log_line date_str label (exn_msg e))) ;;;
  os_call (Os.print "FAILED (Logged)") ;;;
  incr_failed.

(** Lines 114 to 124: the key that decides the row. *)
Definition decide_key (a : Args) : M Z :=
  if all a then ret 10
  else os_call (Os.print "Export?") ;;; os_call Os.read_key.

(** [date] and [date_str]: lines 88 and 89. *)
Definition date_of (w : World) (row : Row) : Time.datetime :=
  Time.fromtimestamp (utcoffset w) (ZDATE row + _dt_offset).
Definition date_str_of (w : World) (row : Row) : string :=
  Time.strftime "%d.%m.%Y %H:%M:%S" (date_of w row).

(** Lines 88 to 145: the body of the [for] loop. *)
Definition process_row (a : Args) (row : Row) : M unit :=
  fun st =>
    (let date := date_of (world st) row in
     let date_str := date_str_of (world st) row in
     let label := label_of row in
     let path_old := path_old_of a row in
     let path_new := path_new_of a date row in
     key <- decide_key a ;;
     if key =? 10 then
       try_except (export_body path_old path_new date)
                  (export_handler a date_str label)
     else if key =? 27 then os_call (Os.print "Skipped")
     else ret tt) st.

(** Lines 87 to 145: the loop; an exception that leaves the body ends it. *)
Fixpoint main_loop (a : Args) (rows : list Row) : M unit :=
  match rows with
  | [] => ret tt
  | row :: rows' => process_row a row ;;; main_loop a rows'
  end.

(** Lines 69 and 75 to 145, from a world in which the export directory has
    been made: nothing happens without rows; otherwise the log is started,
    the counters are zeroed and the rows are processed. *)
Definition run (a : Args) (rows : list Row) (w : World) : State * result unit :=
  (init_log a ;;; main_loop a rows) (mkState w 0 0).

Definition main (a : Args) (rows : list Row) (w : World) : State * result unit :=
  match rows with
  | [] => (mkState w 0 0, Ok tt)
  | _ => run a rows w
  end.

(** * Properties *)

(** ** Label sanitization *)

Section Sanitize.

Lemma replace_replace (s : string) :
  Str.replace Str.slash Str.underscore (Str.replace Str.slash Str.underscore s)
  = Str.replace Str.slash Str.underscore s.
Proof.
  induction s as [|c s IH]; simpl; [reflexivity|].
  rewrite IH. f_equal.
  destruct (bool_decide (c = Str.slash)) eqn:Hc; [reflexivity|].
  now rewrite Hc.
Qed.

Lemma encode_encode (s : string) :
  Str.encode_ascii_ignore (Str.encode_ascii_ignore s) = Str.encode_ascii_ignore s.
Proof.
  induction s as [|c s IH]; simpl; [reflexivity|].
  destruct (Str.is_ascii c) eqn:Hc; simpl; [|exact IH].
  now rewrite Hc, IH.
Qed.

(** Replacing one ASCII character by another commutes with the filter. *)
Lemma encode_replace (s : string) :
  Str.encode_ascii_ignore (Str.replace Str.slash Str.underscore s)
  = Str.replace Str.slash Str.underscore (Str.encode_ascii_ignore s).
Proof.
  induction s as [|c s IH]; simpl; [reflexivity|].
  case_bool_decide as Hc.
  - subst c. simpl. now rewrite IH.
  - destruct (Str.is_ascii c) eqn:Ha; simpl; rewrite IH; [|reflexivity].
    now rewrite bool_decide_eq_false_2.
Qed.

Lemma replace_no_slash (s : string) :
  Str.contains Str.slash (Str.replace Str.slash Str.underscore s) = false.
Proof.
  induction s as [|c s IH]; simpl; [reflexivity|].
  rewrite IH, orb_false_r.
  destruct (decide (c = Str.slash)) as [Hc|Hc].
  - rewrite (bool_decide_eq_true_2 _ Hc). now apply bool_decide_eq_false_2.
  - rewrite (bool_decide_eq_false_2 _ Hc). now apply bool_decide_eq_false_2.
Qed.


(** No character of [s] is ASCII. *)
Fixpoint no_ascii (s : string) : bool :=
  match s with
  | EmptyString => true
  | String c s' => negb (Str.is_ascii c) && no_ascii s'
  end.

Lemma encode_no_ascii (s : string) :
  no_ascii s = true -> Str.encode_ascii_ignore s = EmptyString.
Proof.
  induction s as [|c s IH]; simpl; [reflexivity|].
  intros [Hc Hs]%andb_true_iff. apply negb_true_iff in Hc. rewrite Hc. auto.
Qed.

End Sanitize.

(** C8. Cleaning a label (dropping the characters that are not ASCII and
    replacing ['/'] by ['_']) is idempotent: cleaning a cleaned label gives
    the same string. *)
Theorem sanitize_idempotent (s : string) : sanitize (sanitize s) = sanitize s.
Proof.
  unfold sanitize.
  now rewrite encode_replace, encode_encode, replace_replace.
Qed.

(** C9. The placeholder stands in only for a null or empty raw label: a
    non-empty raw label is always cleaned, and when none of its characters
    is ASCII the label is the empty string (not ["Untitled"]), so that the
    file name is the extension of the source, after the date prefix when
    [date_in_name] is set. *)
Theorem untitled_only_for_missing_label
    (a : Args) (date : Time.datetime) (row : Row) (s : string) :
  ZCUSTOMLABEL row = Some s ->
  s <> EmptyString ->
  label_of row = sanitize s
  /\ (no_ascii s = true ->
      label_of row = EmptyString
      /\ label_of row <> "Untitled"
      /\ file_name_of a date row
         = (if date_in_name a then Time.strftime (date_in_name_format a) date else "")
           +:+ OsPath.splitext_ext (path_old_of a row)
      /\ (Str.nonempty (path_old_raw_of row) = true ->
          path_new_of a date row
          = OsPath.join (export_path a)
              ((if date_in_name a then Time.strftime (date_in_name_format a) date else "")
               +:+ OsPath.splitext_ext (path_old_of a row)))).
Proof.
  intros Hl Hs.
  assert (Hlab : label_of row = sanitize s).
  { unfold label_of. rewrite Hl. destruct s; [congruence|reflexivity]. }
  split; [exact Hlab|]. intros Hna.
  assert (He : label_of row = EmptyString).
  { rewrite Hlab. unfold sanitize. now rewrite encode_no_ascii. }
  assert (Hn : file_name_of a date row
               = (if date_in_name a then Time.strftime (date_in_name_format a) date else "")
                 +:+ OsPath.splitext_ext (path_old_of a row)).
  { unfold file_name_of. rewrite He. now destruct (date_in_name a). }
  repeat split.
  - exact He.
  - rewrite He. discriminate.
  - exact Hn.
  - intros Hp. unfold path_new_of. now rewrite Hp, Hn.
Qed.

Lemma untitled_only_for_missing_label_witness :
  let row := mkRow 0 3 (Some (String (ascii_of_N 195) (String (ascii_of_N 169) ""))) (Some "rec.m4a") in
  let a := mkArgs "/db/CloudRecordings.db" "/out" true false "%Y_" in
  label_of row = EmptyString /\ path_new_of a (Time.Datetime 0) row = "/out/.m4a".
Proof.
  intros row a.
  destruct (untitled_only_for_missing_label a (Time.Datetime 0) row
              (String (ascii_of_N 195) (String (ascii_of_N 169) ""))
              eq_refl ltac:(discriminate)) as [_ H].
  destruct (H eq_refl) as (H1 & _ & _ & H4).
  split; [exact H1|]. rewrite (H4 eq_refl). reflexivity.
Defined.

(** ** Resolved paths *)

Section Paths.

Lemma append_cons (a : ascii) (s t : string) : String a s +:+ t = String a (s +:+ t).
Proof. reflexivity. Qed.

(** The scan returns its initial accumulator or an index it has visited. *)
Lemma rfind_from_range (c : ascii) (s : string) (i acc : Z) :
  Str.rfind_from c s i acc = acc \/ i <= Str.rfind_from c s i acc.
Proof.
  revert i acc. induction s as [|a s IH]; intros i acc; simpl; [now left|].
  destruct (IH (i + 1) (if bool_decide (a = c) then i else acc)) as [H|H].
  - rewrite H. destruct (bool_decide (a = c)); [right; lia|now left].
  - right. lia.
Qed.

(** Nothing equal to [c] is left beyond the index the scan returns. *)
Lemma rfind_from_last (c : ascii) (s : string) (i acc : Z) (n : nat) :
  Str.rfind_from c s i acc < i + Z.of_nat n ->
  Str.contains c (Str.drop n s) = false.
Proof.
  revert i acc n. induction s as [|a s IH]; intros i acc n Hlt.
  - now destruct n.
  - simpl in Hlt. destruct n as [|n]; simpl.
    + apply orb_false_iff. split.
      * apply bool_decide_eq_false_2. intros ->.
        rewrite bool_decide_eq_true_2 in Hlt by reflexivity.
        destruct (rfind_from_range c s (i + 1) i); lia.
      * change s with (Str.drop 0 s).
        apply (IH (i + 1) (if bool_decide (a = c) then i else acc)). lia.
    + apply (IH (i + 1) (if bool_decide (a = c) then i else acc)). lia.
Qed.

Lemma rfind_last (c : ascii) (s : string) (n : nat) :
  Str.rfind c s < Z.of_nat n -> Str.contains c (Str.drop n s) = false.
Proof. intros H. apply (rfind_from_last c s 0 (-1)). unfold Str.rfind in H. lia. Qed.

(** The extension never holds a separator. *)
Lemma splitext_ext_no_slash (p : string) :
  Str.contains Str.slash (OsPath.splitext_ext p) = false.
Proof.
  unfold OsPath.splitext_ext.
  destruct (Str.rfind Str.slash p <? Str.rfind Str.dot p) eqn:Hlt; [|reflexivity].
  simpl. destruct (negb _); [|reflexivity].
  apply Z.ltb_lt in Hlt. apply rfind_last.
  destruct (rfind_from_range Str.slash p 0 (-1)) as [H|H]; unfold Str.rfind in *; lia.
Qed.










End Paths.

Definition row_memo : Row := mkRow 0 10 (Some "Memo") (Some "a.m4a").




(** ** The export loop *)

Ltac unfold_script :=
  unfold process_row, decide_key, export_body, export_handler, init_log,
    try_except, bind, ret, raise, os_call, incr_success, incr_failed in *.

Section Frames.

(** A regular file sits at [p]. *)
Definition is_file (w : World) (p : string) : Prop :=
  exists c m o, files w !! p = Some (File c m o).

Lemma write_with_result (u : string -> string) (p : string) (w w' : World)
    (r : result unit) :
  Os.write_with u p w = (w', r) ->
  (exists e, r = Raise e /\ w' = w)
  \/ (r = Ok tt /\ exists c o,
        w' = set_files (<[p := File (u c) (clock w) o]> (files w)) w
        /\ match files w !! p with
           | Some (File c0 _ o0) => c = c0 /\ o = o0
           | Some Dir => False
           | None => c = EmptyString /\ o = true /\ Os.parent_ok w p = true
           end).
Proof.
  unfold Os.write_with. intros H.
  destruct (files w !! p) as [[|c0 m0 o0]|] eqn:Hp.
  - left. inversion H. eauto.
  - right. inversion H. split; [reflexivity|]. exists c0, o0. auto.
  - destruct (Os.parent_ok w p) eqn:Hk; inversion H.
    + right. split; [reflexivity|]. exists EmptyString, true. auto.
    + left. eauto.
Qed.

Lemma copyfile_result (src dst : string) (w w' : World) (r : result unit) :
  Os.copyfile src dst w = (w', r) ->
  (exists e, r = Raise e /\ w' = w)
  \/ (r = Ok tt /\ src <> dst /\ exists c m o o',
        files w !! src = Some (File c m o)
        /\ w' = set_files (<[dst := File c (clock w) o']> (files w)) w
        /\ match files w !! dst with
           | Some (File _ _ o0) => o' = o0
           | Some Dir => False
           | None => o' = true /\ Os.parent_ok w dst = true
           end).
Proof.
  unfold Os.copyfile. intros H.
  destruct (files w !! src) as [[|c m o]|] eqn:Hs.
  - left. case_bool_decide; inversion H; eauto.
  - case_bool_decide as Hne; [left; inversion H; eauto|].
    apply write_with_result in H as [H|(-> & c' & o' & -> & H)]; [now left|].
    right. split; [reflexivity|]. split; [exact Hne|].
    exists c, m, o, o'. split; [reflexivity|]. split; [reflexivity|].
    destruct (files w !! dst) as [[|? ? ?]|]; intuition.
  - left. inversion H. eauto.
Qed.

Lemma utime_result (p : string) (t : Z) (w w' : World) (r : result unit) :
  Os.utime p t w = (w', r) ->
  (exists e, r = Raise e /\ w' = w)
  \/ (r = Ok tt /\ w' = w /\ files w !! p = Some Dir)
  \/ (r = Ok tt /\ exists c m,
        files w !! p = Some (File c m true)
        /\ w' = set_files (<[p := File c (t * Time.us_per_s) true]> (files w)) w).
Proof.
  unfold Os.utime. intros H.
  destruct (files w !! p) as [[|c m [|]]|] eqn:Hp; inversion H; eauto 10.
Qed.

Lemma is_file_insert (w : World) (p q c : string) (m : Z) (o : bool) :
  is_file w q -> is_file (set_files (<[p := File c m o]> (files w)) w) q.
Proof.
  intros (c0 & m0 & o0 & H). unfold is_file. simpl.
  destruct (decide (p = q)) as [->|Hne].
  - rewrite lookup_insert_eq. eauto.
  - rewrite lookup_insert_ne by exact Hne. eauto.
Qed.


Lemma copyfile_keeps_file src dst w w' r q :
  Os.copyfile src dst w = (w', r) -> is_file w q -> is_file w' q.
Proof.
  intros [(e & -> & ->)|(-> & _ & c & m & o & o' & _ & -> & _)]%copyfile_result Hq;
    [exact Hq|].
  now apply is_file_insert.
Qed.

Lemma utime_keeps_file p t w w' r q :
  Os.utime p t w = (w', r) -> is_file w q -> is_file w' q.
Proof.
  intros [(e & -> & ->)|[(-> & -> & _)|(-> & c & m & _ & ->)]]%utime_result Hq;
    [exact Hq|exact Hq|].
  now apply is_file_insert.
Qed.

(** The decision touches the terminal only. *)
Lemma decide_key_frame (a : Args) (st st1 : State) (r : result Z) :
  decide_key a st = (st1, r) ->
  files (world st1) = files (world st)
  /\ clock (world st1) = clock (world st)
  /\ utcoffset (world st1) = utcoffset (world st)
  /\ failed_count st1 = failed_count st
  /\ success_count st1 = success_count st.
Proof.
  unfold_script. destruct (all a).
  - intros H. inversion H. auto.
  - simpl. unfold Os.read_key. simpl.
    destruct (stdin (world st)); intros H; inversion H; simpl; auto.
Qed.


Lemma decide_key_interactive (a : Args) (st : State) (k : Z) (rest : list Z) :
  all a = false -> stdin (world st) = k :: rest ->
  decide_key a st
  = (mkState (set_stdin rest (set_stdout (stdout (world st) ++ ["Export?"]) (world st)))
       (failed_count st) (success_count st), Ok k).
Proof.
  unfold_script. intros -> Hk. simpl. unfold Os.read_key. simpl. now rewrite Hk.
Qed.

End Frames.

Section Executor.

Definition mod_time_of (w : World) (date : Time.datetime) : Z :=
  Time.mktime (utcoffset w) (Time.timetuple date).


Lemma path_exists_false (w : World) (p : string) :
  Os.path_exists w p = false <-> files w !! p = None.
Proof. unfold Os.path_exists. destruct (files w !! p); split; congruence. Qed.

(** Without a source the body raises at once and changes nothing. *)
Lemma export_body_missing (po pn : string) (date : Time.datetime) (st : State) :
  po = EmptyString \/ files (world st) !! po = None ->
  export_body po pn date st = (st, Raise missing_source).
Proof.
  intros H. unfold_script.
  assert (negb (Str.nonempty po) || negb (Os.path_exists (world st) po) = true) as ->;
    [|reflexivity].
  apply orb_true_iff. destruct H as [->|H]; [now left|right].
  apply negb_true_iff. now apply path_exists_false.
Qed.

(** What the body leaves behind, by the way it ends. *)
Lemma export_body_result (po pn : string) (date : Time.datetime)
    (st st2 : State) (r : result unit) :
  export_body po pn date st = (st2, r) ->
  failed_count st2 = failed_count st
  /\ clock (world st2) = clock (world st)
  /\ utcoffset (world st2) = utcoffset (world st)
  /\ stdin (world st2) = stdin (world st)
  /\ (forall q, is_file (world st) q -> is_file (world st2) q)
  /\ match r with
     | Raise e =>
         success_count st2 = success_count st
         /\ stdout (world st2) = stdout (world st)
     | Ok _ =>
         success_count st2 = S (success_count st)
         /\ stdout (world st2) = stdout (world st) ++ ["Success!"]
         /\ po <> EmptyString /\ po <> pn
         /\ exists c m o,
             files (world st) !! po = Some (File c m o)
             /\ files (world st2)
                = <[pn := File c (mod_time_of (world st) date * Time.us_per_s) true]>
                    (files (world st))
     end.
Proof.
  unfold_script.
  destruct (negb (Str.nonempty po) || negb (Os.path_exists (world st) po)) eqn:Hmiss.
  { intros H. inversion H. subst. auto 10. }
  apply orb_false_iff in Hmiss as [Hne _]. apply negb_false_iff in Hne.
  destruct (Os.copyfile po pn (world st)) as [w1 r1] eqn:Hcopy.
  pose proof (fun q => copyfile_keeps_file _ _ _ _ _ q Hcopy) as Hk1.
  apply copyfile_result in Hcopy
    as [(e & -> & ->)|(-> & Hdiff & c & m & o & o' & Hsrc & -> & _)].
  { intros H. inversion H. subst. simpl. destruct st; simpl. auto 10. }
  simpl.
  destruct (Os.utime pn _ _) as [w2 r2] eqn:Hut.
  pose proof (fun q => utime_keeps_file _ _ _ _ _ q Hut) as Hk2.
  apply utime_result in Hut
    as [(e & -> & ->)|[(-> & _ & Hdir)|(-> & c' & m' & Hdst & ->)]]; simpl in *.
  - intros H. inversion H. subst. simpl. repeat split; auto.
  - rewrite lookup_insert_eq in Hdir. discriminate.
  - rewrite lookup_insert_eq in Hdst. inversion Hdst. subst.
    intros H. inversion H. subst. simpl.
    split; [reflexivity|]. split; [reflexivity|]. split; [reflexivity|].
    split; [reflexivity|]. split; [intros q Hq; apply (Hk2 q), Hk1, Hq|].
    split; [reflexivity|]. split; [reflexivity|].
    split; [intros ->; discriminate|]. split; [exact Hdiff|].
    exists c', m, o. split; [exact Hsrc|]. now rewrite insert_insert_eq.
Qed.


(** The handler appends its line to the log when the log is a file. *)
Lemma export_handler_ok (a : Args) (date_str label : string) (e : exn) (st : State)
    (c : string) (m : Z) (o : bool) :
  files (world st) !! log_path a = Some (File c m o) ->
  export_handler a date_str label e st
  = (mkState
       (set_stdout (stdout (world st) ++ ["FAILED (Logged)"])
          (set_files
             (<[log_path a := File (c +:+ log_line date_str label (exn_msg e))
                                (clock (world st)) o]> (files (world st)))
             (world st)))
       (S (failed_count st)) (success_count st), Ok tt).
Proof.
  intros Hlog. unfold_script.
  unfold Os.open_a_write, Os.write_with. rewrite Hlog. reflexivity.
Qed.

(** When the handler raises, it has not counted yet. *)
Lemma export_handler_counts (a : Args) (date_str label : string) (e : exn)
    (st st' : State) (r : result unit) :
  export_handler a date_str label e st = (st', r) ->
  success_count st' = success_count st
  /\ match r with
     | Ok _ => failed_count st' = S (failed_count st)
     | Raise _ => failed_count st' = failed_count st
     end.
Proof.
  unfold_script.
  destruct (Os.open_a_write _ _ _) as [w1 [[]|e1]]; simpl;
    intros H; inversion H; subst; simpl; auto.
Qed.

End Executor.

Section Rows.

Lemma process_row_export (a : Args) (row : Row) (st st1 : State) :
  decide_key a st = (st1, Ok 10) ->
  process_row a row st
  = try_except
      (export_body (path_old_of a row) (path_new_of a (date_of (world st) row) row)
         (date_of (world st) row))
      (export_handler a (date_str_of (world st) row) (label_of row)) st1.
Proof. intros H. unfold process_row, bind. now rewrite H. Qed.

Lemma process_row_skip (a : Args) (row : Row) (st st1 : State) (k : Z) :
  decide_key a st = (st1, Ok k) -> k <> 10 ->
  process_row a row st
  = (if k =? 27
     then (mkState (set_stdout (stdout (world st1) ++ ["Skipped"]) (world st1))
             (failed_count st1) (success_count st1), Ok tt)
     else (st1, Ok tt)).
Proof.
  intros H Hk. unfold process_row, bind. rewrite H.
  apply Z.eqb_neq in Hk. rewrite Hk. now destruct (k =? 27).
Qed.

Lemma process_row_abort (a : Args) (row : Row) (st st1 : State) (e : exn) :
  decide_key a st = (st1, Raise e) -> process_row a row st = (st1, Raise e).
Proof. intros H. unfold process_row, bind. now rewrite H. Qed.

(** One row changes the counters in one of three ways. *)
Definition counted (st st' : State) : Prop :=
  (success_count st' = success_count st /\ failed_count st' = failed_count st)
  \/ (success_count st' = S (success_count st) /\ failed_count st' = failed_count st)
  \/ (success_count st' = success_count st /\ failed_count st' = S (failed_count st)).

Lemma process_row_counted (a : Args) (row : Row) (st : State) :
  counted st (process_row a row st).1.
Proof.
  destruct (decide_key a st) as [st1 [k|e]] eqn:Hkey.
  - destruct (decide_key_frame _ _ _ _ Hkey) as (_ & _ & _ & Hf & Hs).
    destruct (decide (k = 10)) as [->|Hk].
    + rewrite (process_row_export _ _ _ _ Hkey). unfold try_except.
      destruct (export_body _ _ _ st1) as [st2 [[]|e]] eqn:Hbody;
        apply export_body_result in Hbody as (Hf2 & _ & _ & _ & _ & Hr).
      * right; left. simpl. destruct Hr as [Hr _]. split; congruence.
      * destruct Hr as [Hs2 _].
        destruct (export_handler _ _ _ e st2) as [st3 r3] eqn:Hh.
        apply export_handler_counts in Hh as [Hs3 Hf3]. simpl.
        destruct r3; [right; right|left]; split; congruence.
    + rewrite (process_row_skip _ _ _ _ _ Hkey Hk).
      left. destruct (k =? 27); simpl; split; congruence.
  - rewrite (process_row_abort _ _ _ _ _ Hkey).
    destruct (decide_key_frame _ _ _ _ Hkey) as (_ & _ & _ & Hf & Hs).
    left. simpl. split; congruence.
Qed.

Lemma main_loop_counts (a : Args) (rows : list Row) (st : State) :
  (success_count st <= success_count (main_loop a rows st).1
   /\ failed_count st <= failed_count (main_loop a rows st).1
   /\ success_count (main_loop a rows st).1 + failed_count (main_loop a rows st).1
      <= success_count st + failed_count st + length rows)%nat.
Proof.
  revert st. induction rows as [|row rows IH]; intros st; simpl.
  - unfold ret. simpl. lia.
  - unfold bind. pose proof (process_row_counted a row st) as Hc.
    destruct (process_row a row st) as [st1 [[]|e]]; simpl in Hc.
    + specialize (IH st1). unfold counted in Hc. lia.
    + simpl. unfold counted in Hc. lia.
Qed.

Lemma init_log_counts (a : Args) (st : State) :
  failed_count (init_log a st).1 = failed_count st
  /\ success_count (init_log a st).1 = success_count st.
Proof.
  unfold_script. destruct (Os.open_w_write _ _ _) as [w1 r1]. simpl. auto.
Qed.

End Rows.

(** C10. One row moves at most one of the two counters, and by exactly
    one; no counter ever goes down in the loop; and at the end of [main]
    the two counters together do not exceed the number of rows. *)
Theorem counters_exclusive_monotone
    (a : Args) (row : Row) (rows : list Row) (st : State) (w : World) :
  ((success_count (process_row a row st).1 = success_count st
    /\ failed_count (process_row a row st).1 = failed_count st)
   \/ (success_count (process_row a row st).1 = S (success_count st)
       /\ failed_count (process_row a row st).1 = failed_count st)
   \/ (success_count (process_row a row st).1 = success_count st
       /\ failed_count (process_row a row st).1 = S (failed_count st)))
  /\ (success_count st <= success_count (main_loop a rows st).1)%nat
  /\ (failed_count st <= failed_count (main_loop a rows st).1)%nat
  /\ (success_count (main a rows w).1 + failed_count (main a rows w).1
      <= length rows)%nat.
Proof.
  split; [exact (process_row_counted a row st)|].
  destruct (main_loop_counts a rows st) as (H1 & H2 & _).
  split; [exact H1|]. split; [exact H2|].
  unfold main. destruct rows as [|r rows']; [simpl; lia|].
  unfold run, bind.
  pose proof (init_log_counts a (mkState w 0 0)) as [Hf Hs].
  destruct (init_log a (mkState w 0 0)) as [st1 [[]|e]]; simpl in Hf, Hs.
  - pose proof (main_loop_counts a (r :: rows') st1) as (_ & _ & H3). lia.
  - simpl. lia.
Qed.

(** C3. In interactive mode a key other than Enter (10), be it Escape (27)
    or any other, skips the row: the body of the [try] is not entered, the
    file system is left as it was and neither counter changes; Escape
    prints ["Skipped"], any other key prints nothing more. *)
Theorem other_key_skips (a : Args) (row : Row) (st : State) (k : Z) (rest : list Z) :
  all a = false ->
  stdin (world st) = k :: rest ->
  k <> 10 ->
  exists st',
    process_row a row st = (st', Ok tt)
    /\ files (world st') = files (world st)
    /\ success_count st' = success_count st
    /\ failed_count st' = failed_count st
    /\ stdin (world st') = rest
    /\ stdout (world st')
       = stdout (world st) ++ "Export?" :: (if k =? 27 then ["Skipped"] else []).
Proof.
  intros Hall Hin Hk.
  pose proof (decide_key_interactive a st k rest Hall Hin) as Hkey.
  rewrite (process_row_skip _ _ _ _ _ Hkey Hk).
  destruct (k =? 27); eexists; (split; [reflexivity|]); simpl; repeat split.
  - now rewrite <- app_assoc.
Qed.

Definition args_interactive : Args :=
  mkArgs "/lib/Recordings/CloudRecordings.db" "/out" false false "%Y-%m-%d-%H-%M-%S_".
Definition files_sample : gmap string node :=
  <["/out" := Dir]>
    (<["/out/failed_exports.txt" := File "log" 7 true]>
       (<["/lib/Recordings/a.m4a" := File "AAA" 5 true]> ∅)).
Definition world_sample (keys : list Z) : World :=
  mkWorld files_sample 1700000000000000 3600 keys [].

Lemma other_key_skips_witness :
  exists st',
    process_row args_interactive row_memo (mkState (world_sample [27; 10]) 0 0)
    = (st', Ok tt)
    /\ files (world st') = files_sample
    /\ success_count st' = 0%nat /\ failed_count st' = 0%nat
    /\ stdout (world st') = ["Export?"; "Skipped"].
Proof.
  destruct (other_key_skips args_interactive row_memo
              (mkState (world_sample [27; 10]) 0 0) 27 [10]
              eq_refl eq_refl ltac:(lia))
    as (st' & H1 & H2 & H3 & H4 & _ & H6).
  exists st'. repeat split; assumption.
Defined.

(** C1. A row decided for export whose source path is empty or names
    nothing on disk fails with the missing-source reason: the run goes on,
    [failed_count] grows by one, [success_count] stays, the only change to
    the file system is the line appended to the log, and no file is
    created. *)
Theorem missing_source_fails
    (a : Args) (row : Row) (st st1 : State) (c : string) (m : Z) (o : bool) :
  decide_key a st = (st1, Ok 10) ->
  path_old_of a row = EmptyString \/ files (world st) !! path_old_of a row = None ->
  files (world st) !! log_path a = Some (File c m o) ->
  exists st',
    process_row a row st = (st', Ok tt)
    /\ failed_count st' = S (failed_count st)
    /\ success_count st' = success_count st
    /\ files (world st')
       = <[log_path a :=
             File (c +:+ log_line (date_str_of (world st) row) (label_of row)
                           "Audio file not found on disk (likely in iCloud)")
               (clock (world st)) o]> (files (world st))
    /\ dom (files (world st')) = dom (files (world st))
    /\ stdout (world st') = stdout (world st1) ++ ["FAILED (Logged)"].
Proof.
  intros Hkey Hmiss Hlog.
  destruct (decide_key_frame _ _ _ _ Hkey) as (Hfs & Hck & _ & Hf & Hs).
  rewrite (process_row_export _ _ _ _ Hkey). unfold try_except.
  rewrite export_body_missing by (now rewrite Hfs).
  rewrite <- Hfs in Hlog.
  rewrite (export_handler_ok _ _ _ _ _ _ _ _ Hlog).
  eexists. split; [reflexivity|]. simpl.
  rewrite Hf, Hs, Hfs, Hck. repeat split.
  rewrite dom_insert_L. rewrite Hfs in Hlog.
  apply subseteq_union_1_L, singleton_subseteq_l, elem_of_dom. eauto.
Qed.

Definition args_batch : Args :=
  mkArgs "/lib/Recordings/CloudRecordings.db" "/out" true false "%Y-%m-%d-%H-%M-%S_".
Definition row_gone : Row := mkRow 1500000 10 (Some "gone") (Some "c.m4a").

Lemma missing_source_fails_witness :
  exists st',
    process_row args_batch row_gone (mkState (world_sample []) 0 0) = (st', Ok tt)
    /\ failed_count st' = 1%nat
    /\ success_count st' = 0%nat
    /\ dom (files (world st')) = dom files_sample.
Proof.
  destruct (missing_source_fails args_batch row_gone
              (mkState (world_sample []) 0 0) (mkState (world_sample []) 0 0)
              "log" 7 true eq_refl (or_intror eq_refl) eq_refl)
    as (st' & H1 & H2 & H3 & _ & H5 & _).
  exists st'. repeat split; assumption.
Defined.



(** A destination that exists and belongs to someone else: the copy goes
    through and [os.utime] is refused. *)
Definition world_foreign : World :=
  mkWorld (<["/out/Memo.m4a" := File "old" 3 false]> files_sample)
    1700000000000000 3600 [] [].


Example refused_utime_is_logged :
  files (world (process_row args_batch row_memo (mkState world_foreign 0 0)).1)
    !! "/out/failed_exports.txt"
  = Some (File ("log" +:+ log_line "01.01.2001 01:00:00" "Memo"
                          "[Errno 1] Operation not permitted: '/out/Memo.m4a'")
            1700000000000000 true).
Proof. vm_compute. reflexivity. Qed.

(** ** Modification time of an exported file *)






(** ** The failure log *)

Section Log.







End Log.




(** ** Batch mode *)

Section Batch.

(** The destination of a row in a world (through its time zone). *)
Definition dest_of (a : Args) (w : World) (row : Row) : string :=
  path_new_of a (date_of w row) row.








End Batch.

Definition world_two : World :=
  mkWorld (<["/out" := Dir]>
             (<["/lib/Recordings/a.m4a" := File "AAA" 5 true]>
                (<["/lib/Recordings/b.m4a" := File "BBB" 6 true]> ∅)))
    1700000000000000 3600 [] [].






(** * Further properties of the script *)

(** ** Labels and extensions *)

Section Labels.

(** Every character of [s] is ASCII. *)
Fixpoint all_ascii (s : string) : bool :=
  match s with
  | EmptyString => true
  | String c s' => Str.is_ascii c && all_ascii s'
  end.

Lemma encode_all_ascii (s : string) : all_ascii (Str.encode_ascii_ignore s) = true.
Proof.
  induction s as [|c s IH]; simpl; [reflexivity|].
  destruct (Str.is_ascii c) eqn:Hc; [|exact IH]. simpl. now rewrite Hc.
Qed.

Lemma replace_all_ascii (s : string) :
  all_ascii s = true -> all_ascii (Str.replace Str.slash Str.underscore s) = true.
Proof.
  induction s as [|c s IH]; simpl; [reflexivity|].
  intros [Hc Hs]%andb_true_iff. rewrite (IH Hs), andb_true_r.
  destruct (bool_decide (c = Str.slash)); [reflexivity|exact Hc].
Qed.

Lemma sanitize_clean (s : string) :
  all_ascii (sanitize s) = true /\ Str.contains Str.slash (sanitize s) = false.
Proof.
  unfold sanitize. split; [|apply replace_no_slash].
  apply replace_all_ascii, encode_all_ascii.
Qed.

Lemma sanitize_fixes_clean (s : string) :
  all_ascii s = true -> Str.contains Str.slash s = false -> sanitize s = s.
Proof.
  unfold sanitize. induction s as [|c s IH]; simpl; [reflexivity|].
  intros [Hc Hs]%andb_true_iff [Hne Hno]%orb_false_iff.
  rewrite Hc. simpl. rewrite Hne. f_equal. now apply IH.
Qed.

Lemma take_drop (n : nat) (s : string) : Str.take n s +:+ Str.drop n s = s.
Proof.
  revert s. induction n as [|n IH]; intros [|a s]; simpl; try reflexivity.
  rewrite append_cons. f_equal. apply IH.
Qed.

Lemma drop_S (n : nat) (s t : string) (c : ascii) :
  Str.drop n s = String c t -> Str.drop (S n) s = t.
Proof.
  revert s. induction n as [|n IH]; intros [|a s] H; simpl in *; try discriminate.
  - now inversion H.
  - now apply IH.
Qed.

(** The index the scan returns, when it is one the scan visited, is a
    place where [c] stands. *)
Lemma rfind_from_at (c : ascii) (s : string) (i acc : Z) :
  acc < i ->
  i <= Str.rfind_from c s i acc ->
  exists t, Str.drop (Z.to_nat (Str.rfind_from c s i acc - i)) s = String c t.
Proof.
  revert i acc. induction s as [|a s IH]; intros i acc Hacc Hr; simpl in *; [lia|].
  destruct (rfind_from_range c s (i + 1) (if bool_decide (a = c) then i else acc))
    as [Heq|Hge].
  - rewrite Heq in *. case_bool_decide as Hc; [|lia].
    subst a. rewrite Z.sub_diag. simpl. eauto.
  - destruct (IH (i + 1) (if bool_decide (a = c) then i else acc)) as [t Ht].
    + case_bool_decide; lia.
    + exact Hge.
    + exists t. set (r := Str.rfind_from c s (i + 1) _) in *.
      replace (Z.to_nat (r - i)) with (S (Z.to_nat (r - (i + 1)))) by lia.
      exact Ht.
Qed.

Lemma rfind_from_absent (c : ascii) (s : string) (i acc : Z) :
  Str.contains c s = false -> Str.rfind_from c s i acc = acc.
Proof.
  revert i acc. induction s as [|a s IH]; intros i acc H; simpl in *; [reflexivity|].
  apply orb_false_iff in H as [Ha Hs]. rewrite Ha. now apply IH.
Qed.

Lemma rfind_at (c : ascii) (s : string) :
  0 <= Str.rfind c s ->
  exists t, Str.drop (Z.to_nat (Str.rfind c s)) s = String c t
            /\ Str.contains c t = false.
Proof.
  intros H. destruct (rfind_from_at c s 0 (-1)) as [t Ht]; [lia|exact H|].
  fold (Str.rfind c s) in Ht. rewrite Z.sub_0_r in Ht.
  exists t. split; [exact Ht|].
  rewrite <- (drop_S _ _ _ _ Ht). apply rfind_last. lia.
Qed.

Lemma join_nonempty (p q : string) : q <> EmptyString -> OsPath.join p q <> EmptyString.
Proof.
  intros Hq. unfold OsPath.join.
  destruct (Str.startswith Str.slash q); [exact Hq|].
  destruct (negb (Str.nonempty p) || Str.endswith Str.slash p);
    destruct p; simpl; try discriminate; exact Hq.
Qed.

End Labels.

(** X1. Whatever the row holds, the label used for the file name and for
    the log is made of ASCII characters only and has no ['/']. *)
Theorem label_is_clean (row : Row) :
  all_ascii (label_of row) = true /\ Str.contains Str.slash (label_of row) = false.
Proof.
  unfold label_of. destruct (ZCUSTOMLABEL row) as [s|]; [|split; reflexivity].
  destruct (Str.nonempty s); [apply sanitize_clean|split; reflexivity].
Qed.

(** X2. The strings that cleaning leaves as they are are exactly the ASCII
    strings without ['/']. *)
Theorem sanitize_fixpoints (s : string) :
  sanitize s = s <-> all_ascii s = true /\ Str.contains Str.slash s = false.
Proof.
  split.
  - intros H. rewrite <- H. apply sanitize_clean.
  - intros [H1 H2]. now apply sanitize_fixes_clean.
Qed.

(** X3. The extension taken from a path is a final segment of the path; it
    is empty, or it is a dot followed by characters among which there is
    neither a dot nor a separator, and then something stands before it. *)
Theorem extension_shape (p : string) :
  (exists front, p = front +:+ OsPath.splitext_ext p)
  /\ (OsPath.splitext_ext p = EmptyString
      \/ exists t, OsPath.splitext_ext p = String Str.dot t
                   /\ Str.contains Str.dot t = false
                   /\ Str.contains Str.slash t = false
                   /\ OsPath.splitext_ext p <> p).
Proof.
  pose proof (splitext_ext_no_slash p) as Hslash.
  unfold OsPath.splitext_ext in *.
  destruct ((Str.rfind Str.slash p <? Str.rfind Str.dot p) && _) eqn:Hc.
  - apply andb_true_iff in Hc as [Hlt Hdots]. apply Z.ltb_lt in Hlt.
    assert (Hsep : -1 <= Str.rfind Str.slash p).
    { unfold Str.rfind. destruct (rfind_from_range Str.slash p 0 (-1)); lia. }
    destruct (rfind_at Str.dot p) as (t & Ht & Hnodot); [lia|].
    split; [eexists; symmetry; apply take_drop|]. right.
    exists t. rewrite Ht in *. simpl in Hslash.
    repeat split; try assumption.
    intros Heq. subst p. clear Ht Hlt Hsep.
    unfold Str.rfind in Hdots. simpl in Hdots.
    rewrite !rfind_from_absent in Hdots by assumption.
    discriminate.
  - split; [exists p; clear; induction p as [|a p IH]; [reflexivity|];
            rewrite append_cons; now f_equal|].
    now left.
Qed.

(** X4. The source path is empty exactly for the rows whose stored path is
    null or empty, and for those the destination is empty as well. *)
Theorem empty_source_is_missing_path (a : Args) (date : Time.datetime) (row : Row) :
  (path_old_of a row = EmptyString <-> path_old_raw_of row = EmptyString)
  /\ (path_old_raw_of row = EmptyString -> path_new_of a date row = EmptyString)
  /\ (ZPATH row = None -> path_old_raw_of row = EmptyString).
Proof.
  unfold path_old_of, path_new_of. split; [|split].
  - destruct (path_old_raw_of row) as [|c s] eqn:Hraw; simpl; [tauto|].
    split; [|intros H; discriminate].
    destruct (negb _); intros H; [|discriminate].
    now apply join_nonempty in H.
  - now intros ->.
  - unfold path_old_raw_of. now intros ->.
Qed.

(** ** What the script writes *)

Section Writes.

(** From [f] to [f'] an entry either stays as it is or, if it is one of the
    [allowed] paths and not a directory, becomes a regular file. *)
Definition writes_only (allowed : string -> Prop) (f f' : gmap string node) : Prop :=
  forall q,
    f' !! q = f !! q
    \/ (allowed q /\ f !! q <> Some Dir /\ exists c m o, f' !! q = Some (File c m o)).

Lemma writes_only_refl (allowed : string -> Prop) (f : gmap string node) :
  writes_only allowed f f.
Proof. intros q. now left. Qed.

Lemma writes_only_trans (allowed : string -> Prop) (f g h : gmap string node) :
  writes_only allowed f g -> writes_only allowed g h -> writes_only allowed f h.
Proof.
  intros Hfg Hgh q. destruct (Hgh q) as [Heq|(Ha & Hnd & Hfile)].
  - rewrite Heq. apply Hfg.
  - right. split; [exact Ha|]. split; [|exact Hfile].
    destruct (Hfg q) as [Heq|(_ & Hnd' & _)]; [now rewrite <- Heq|exact Hnd'].
Qed.

Lemma writes_only_weaken (P Q : string -> Prop) (f g : gmap string node) :
  (forall q, P q -> Q q) -> writes_only P f g -> writes_only Q f g.
Proof.
  intros HPQ H q. destruct (H q) as [Heq|(Ha & Hrest)]; [now left|right].
  split; [now apply HPQ|exact Hrest].
Qed.

Lemma writes_only_insert (f : gmap string node) (p c : string) (m : Z) (o : bool) :
  f !! p <> Some Dir -> writes_only (fun q => q = p) f (<[p := File c m o]> f).
Proof.
  intros Hnd q. destruct (decide (p = q)) as [->|Hne].
  - right. rewrite lookup_insert_eq. eauto 10.
  - left. now rewrite lookup_insert_ne.
Qed.

Lemma write_with_writes (u : string -> string) (p : string) (w w' : World)
    (r : result unit) :
  Os.write_with u p w = (w', r) ->
  writes_only (fun q => q = p) (files w) (files w')
  /\ clock w' = clock w /\ utcoffset w' = utcoffset w
  /\ stdin w' = stdin w /\ stdout w' = stdout w.
Proof.
  intros [(e & -> & ->)|(-> & c & o & -> & Hold)]%write_with_result.
  - split; [apply writes_only_refl|auto].
  - split; [|auto]. simpl. apply writes_only_insert.
    destruct (files w !! p) as [[|]|]; [contradiction|discriminate..].
Qed.

Lemma copyfile_writes (src dst : string) (w w' : World) (r : result unit) :
  Os.copyfile src dst w = (w', r) ->
  writes_only (fun q => q = dst) (files w) (files w')
  /\ clock w' = clock w /\ utcoffset w' = utcoffset w
  /\ stdin w' = stdin w /\ stdout w' = stdout w.
Proof.
  unfold Os.copyfile.
  destruct (files w !! src) as [[|c m o]|].
  - case_bool_decide; intros [= <- <-]; (split; [apply writes_only_refl|auto]).
  - case_bool_decide.
    + intros [= <- <-]. split; [apply writes_only_refl|auto].
    + apply write_with_writes.
  - intros [= <- <-]. split; [apply writes_only_refl|auto].
Qed.

Lemma utime_writes (p : string) (t : Z) (w w' : World) (r : result unit) :
  Os.utime p t w = (w', r) ->
  writes_only (fun q => q = p) (files w) (files w')
  /\ clock w' = clock w /\ utcoffset w' = utcoffset w
  /\ stdin w' = stdin w /\ stdout w' = stdout w.
Proof.
  intros [(e & -> & ->)|[(-> & -> & _)|(-> & c & m & Hp & ->)]]%utime_result;
    try (split; [apply writes_only_refl|auto]).
  split; [|auto]. simpl. apply writes_only_insert. rewrite Hp. discriminate.
Qed.

(** The body of the [try] writes to the destination only. *)
Lemma export_body_writes (po pn : string) (date : Time.datetime)
    (st st2 : State) (r : result unit) :
  export_body po pn date st = (st2, r) ->
  writes_only (fun q => q = pn) (files (world st)) (files (world st2)).
Proof.
  unfold_script.
  destruct (negb (Str.nonempty po) || negb (Os.path_exists (world st) po)).
  { intros [= <- <-]. apply writes_only_refl. }
  destruct (Os.copyfile po pn (world st)) as [w1 [[]|e1]] eqn:Hcopy;
    apply copyfile_writes in Hcopy as (Hw1 & _); simpl.
  - destruct (Os.utime pn _ w1) as [w2 [[]|e2]] eqn:Hut;
      apply utime_writes in Hut as (Hw2 & _); simpl;
      intros [= <- <-]; simpl; eapply writes_only_trans; eassumption.
  - intros [= <- <-]. exact Hw1.
Qed.

(** The handler writes to the log only, and keeps the zone. *)
Lemma export_handler_writes (a : Args) (ds lb : string) (e : exn)
    (st st' : State) (r : result unit) :
  export_handler a ds lb e st = (st', r) ->
  writes_only (fun q => q = log_path a) (files (world st)) (files (world st'))
  /\ utcoffset (world st') = utcoffset (world st)
  /\ stdin (world st') = stdin (world st).
Proof.
  unfold_script.
  destruct (Os.open_a_write _ _ _) as [w1 [[]|e1]] eqn:Hw;
    apply write_with_writes in Hw as (Hw1 & _ & Htz & Hin & _); simpl;
    intros [= <- <-]; simpl; auto.
Qed.

(** One row writes to its destination and to the log only, and keeps the
    zone. *)
Lemma process_row_writes (a : Args) (row : Row) (st : State) :
  writes_only (fun q => q = path_new_of a (date_of (world st) row) row \/ q = log_path a)
    (files (world st)) (files (world (process_row a row st).1))
  /\ utcoffset (world (process_row a row st).1) = utcoffset (world st).
Proof.
  destruct (decide_key a st) as [st1 [k|e]] eqn:Hkey;
    destruct (decide_key_frame _ _ _ _ Hkey) as (Hfs & _ & Htz & _).
  - destruct (decide (k = 10)) as [->|Hk].
    + rewrite (process_row_export _ _ _ _ Hkey). unfold try_except.
      destruct (export_body _ _ _ st1) as [st2 [[]|e]] eqn:Hbody.
      * pose proof (export_body_writes _ _ _ _ _ _ Hbody) as Hw.
        apply export_body_result in Hbody as (_ & _ & Htz2 & _).
        simpl. rewrite <- Hfs. split; [|congruence].
        eapply writes_only_weaken; [|exact Hw]. intros q ->. now left.
      * pose proof (export_body_writes _ _ _ _ _ _ Hbody) as Hw.
        apply export_body_result in Hbody as (_ & _ & Htz2 & _).
        destruct (export_handler _ _ _ e st2) as [st3 r3] eqn:Hh.
        apply export_handler_writes in Hh as (Hw3 & Htz3 & _).
        simpl. rewrite <- Hfs. split; [|congruence].
        eapply writes_only_trans.
        -- eapply writes_only_weaken; [|exact Hw]. intros q ->. now left.
        -- eapply writes_only_weaken; [|exact Hw3]. intros q ->. now right.
    + rewrite (process_row_skip _ _ _ _ _ Hkey Hk).
      destruct (k =? 27); simpl; rewrite <- Hfs; (split; [apply writes_only_refl|exact Htz]).
  - rewrite (process_row_abort _ _ _ _ _ Hkey). simpl. rewrite <- Hfs.
    split; [apply writes_only_refl|exact Htz].
Qed.

Lemma dest_of_zone (a : Args) (w w' : World) (row : Row) :
  utcoffset w' = utcoffset w -> dest_of a w' row = dest_of a w row.
Proof. intros H. unfold dest_of, date_of. now rewrite H. Qed.

(** The loop writes to the destinations of its rows and to the log only. *)
Lemma main_loop_writes (a : Args) (rows : list Row) (st : State) :
  writes_only (fun q => q ∈ (dest_of a (world st) <$> rows) \/ q = log_path a)
    (files (world st)) (files (world (main_loop a rows st).1))
  /\ utcoffset (world (main_loop a rows st).1) = utcoffset (world st).
Proof.
  revert st. induction rows as [|row rows IH]; intros st.
  - simpl. split; [apply writes_only_refl|reflexivity].
  - simpl main_loop. unfold bind.
    destruct (process_row_writes a row st) as [Hw Htz].
    destruct (process_row a row st) as [st1 [[]|e]]; simpl in Hw, Htz.
    + destruct (IH st1) as [Hw1 Htz1]. split; [|congruence].
      eapply writes_only_trans.
      * eapply writes_only_weaken; [|exact Hw].
        intros q [-> | ->]; [left; apply list_elem_of_here|now right].
      * eapply writes_only_weaken; [|exact Hw1].
        intros q [Hq | ->]; [left|now right].
        rewrite fmap_cons. apply list_elem_of_further.
        apply list_elem_of_fmap in Hq as (r & -> & Hr).
        apply list_elem_of_fmap. exists r. split; [|exact Hr].
        symmetry. now apply dest_of_zone.
    + simpl. split; [|exact Htz].
      eapply writes_only_weaken; [|exact Hw].
      intros q [-> | ->]; [left; apply list_elem_of_here|now right].
Qed.

Lemma main_writes (a : Args) (rows : list Row) (w : World) :
  writes_only (fun q => q ∈ (dest_of a w <$> rows) \/ q = log_path a)
    (files w) (files (world (main a rows w).1)).
Proof.
  destruct rows as [|r0 rows0]; [apply writes_only_refl|].
  change (main a (r0 :: rows0) w) with (run a (r0 :: rows0) w).
  set (rows := r0 :: rows0). clearbody rows.
  unfold run, bind.
  destruct (init_log a (mkState w 0 0)) as [st1 r1] eqn:Hinit.
  assert (Hw1 : writes_only (fun q => q = log_path a) (files w) (files (world st1))
                /\ utcoffset (world st1) = utcoffset w).
  { revert Hinit. unfold_script.
    destruct (Os.open_w_write _ _ _) as [w1 r1'] eqn:Hw.
    apply write_with_writes in Hw as (Hw & _ & Htz & _).
    intros [= <- <-]. simpl in *. auto. }
  destruct Hw1 as [Hw1 Htz1].
  destruct r1 as [[]|e]; simpl.
  - destruct (main_loop_writes a rows st1) as [Hw2 _].
    eapply writes_only_trans.
    + eapply writes_only_weaken; [|exact Hw1]. intros q ->. now right.
    + eapply writes_only_weaken; [|exact Hw2].
      intros q [Hq | ->]; [left|now right].
      apply list_elem_of_fmap in Hq as (r & -> & Hr).
      apply list_elem_of_fmap. exists r. split; [|exact Hr]. now apply dest_of_zone.
  - eapply writes_only_weaken; [|exact Hw1]. intros q ->. now right.
Qed.

End Writes.

(** X5. Whatever the mode, the key and the outcome, one row leaves every
    entry of the file system other than its destination and the log as it
    was. *)
Theorem row_touches_destination_and_log (a : Args) (row : Row) (st : State) (q : string) :
  q <> path_new_of a (date_of (world st) row) row ->
  q <> log_path a ->
  files (world (process_row a row st).1) !! q = files (world st) !! q.
Proof.
  intros H1 H2. destruct (process_row_writes a row st) as [Hw _].
  destruct (Hw q) as [Heq|([Hq|Hq] & _)]; [exact Heq|contradiction..].
Qed.

Lemma row_touches_destination_and_log_witness :
  files (world (process_row args_batch row_memo (mkState (world_sample []) 0 0)).1)
    !! "/lib/Recordings/a.m4a"
  = Some (File "AAA" 5 true).
Proof.
  rewrite (row_touches_destination_and_log args_batch row_memo
             (mkState (world_sample []) 0 0) "/lib/Recordings/a.m4a").
  - reflexivity.
  - vm_compute. discriminate.
  - vm_compute. discriminate.
Defined.

(** X6. A run of [main] removes nothing: every entry that was there is
    still there, every directory is still a directory, and an entry that is
    neither the log nor the destination of one of the rows is unchanged, so
    that the sources are copied, never moved or altered. *)
Theorem main_keeps_other_files (a : Args) (rows : list Row) (w : World) (q : string) :
  (is_Some (files w !! q) -> is_Some (files (world (main a rows w).1) !! q))
  /\ (files w !! q = Some Dir -> files (world (main a rows w).1) !! q = Some Dir)
  /\ (q <> log_path a -> q ∉ (dest_of a w <$> rows)
      -> files (world (main a rows w).1) !! q = files w !! q).
Proof.
  destruct (main_writes a rows w q) as [Heq|(Hq & Hnd & c & m & o & Hfile)].
  - rewrite Heq. auto.
  - rewrite Hfile. split; [eauto|]. split; [contradiction|].
    intros H1 H2. destruct Hq; contradiction.
Qed.

Lemma main_keeps_other_files_witness :
  files (world (main args_batch [row_memo; row_gone] world_two).1) !! "/lib/Recordings/b.m4a"
  = Some (File "BBB" 6 true).
Proof.
  destruct (main_keeps_other_files args_batch [row_memo; row_gone] world_two
              "/lib/Recordings/b.m4a") as (_ & _ & H).
  rewrite H.
  - reflexivity.
  - vm_compute. discriminate.
  - intros Hin. apply list_elem_of_In in Hin. vm_compute in Hin.
    intuition discriminate.
Defined.

(** ** Rows that are decided for export *)

Section Decided.





End Decided.







(** ** Copies that stay and copies that are replaced *)





(** ** The log and the table, over a whole run *)

Section Ledger.

(** The line written for the row and the exception of [e]. *)
Definition entry_line (w : World) (e : Row * exn) : string :=
  log_line (date_str_of w e.1) (label_of e.1) (exn_msg e.2).







(** The number of cells of [out] that read [s]. *)
Definition cells (s : string) (out : list string) : nat :=
  length (filter (eq s) out).

Lemma cells_app (s : string) (l1 l2 : list string) :
  cells s (l1 ++ l2) = (cells s l1 + cells s l2)%nat.
Proof. unfold cells. now rewrite filter_app, length_app. Qed.

Lemma export_handler_prints (a : Args) (ds lb : string) (e : exn)
    (st st' : State) (r : result unit) :
  export_handler a ds lb e st = (st', r) ->
  match r with
  | Ok _ => stdout (world st') = stdout (world st) ++ ["FAILED (Logged)"]
  | Raise _ => stdout (world st') = stdout (world st)
  end.
Proof.
  unfold_script.
  destruct (Os.open_a_write _ _ _) as [w1 [[]|e1]] eqn:Hw;
    apply write_with_writes in Hw as (_ & _ & _ & _ & Hout); simpl;
    intros [= <- <-]; simpl; now rewrite Hout.
Qed.

Lemma decide_key_prints (a : Args) (st st1 : State) (r : result Z) :
  decide_key a st = (st1, r) ->
  stdout (world st1) = stdout (world st) ++ (if all a then [] else ["Export?"]).
Proof.
  unfold_script. destruct (all a).
  - intros [= <- <-]. now rewrite app_nil_r.
  - simpl. unfold Os.read_key. simpl.
    destruct (stdin (world st)); intros [= <- <-]; reflexivity.
Qed.

(** One row prints a ["Success!"] exactly when it counts a success and a
    ["FAILED (Logged)"] exactly when it counts a failure. *)
Lemma process_row_cells (a : Args) (row : Row) (st : State) :
  (cells "Success!" (stdout (world (process_row a row st).1)) + success_count st
   = cells "Success!" (stdout (world st)) + success_count (process_row a row st).1)%nat
  /\ (cells "FAILED (Logged)" (stdout (world (process_row a row st).1)) + failed_count st
      = cells "FAILED (Logged)" (stdout (world st))
        + failed_count (process_row a row st).1)%nat.
Proof.
  destruct (decide_key a st) as [st1 [k|e]] eqn:Hkey;
    pose proof (decide_key_prints _ _ _ _ Hkey) as Hout;
    destruct (decide_key_frame _ _ _ _ Hkey) as (_ & _ & _ & Hf & Hs).
  - destruct (decide (k = 10)) as [->|Hk].
    + rewrite (process_row_export _ _ _ _ Hkey). unfold try_except.
      destruct (export_body _ _ _ st1) as [st2 [[]|e]] eqn:Hbody;
        apply export_body_result in Hbody as (Hf2 & _ & _ & _ & _ & Hr).
      * destruct Hr as (Hs2 & Hout2 & _). simpl.
        rewrite Hout2, Hout, !cells_app. destruct (all a); simpl; unfold cells; simpl; lia.
      * destruct Hr as (Hs2 & Hout2).
        destruct (export_handler _ _ _ e st2) as [st3 r3] eqn:Hh.
        pose proof (export_handler_prints _ _ _ _ _ _ _ Hh) as Hout3.
        apply export_handler_counts in Hh as [Hs3 Hf3]. simpl.
        destruct r3; rewrite Hout3, ?Hout2, Hout, !cells_app;
          destruct (all a); simpl; unfold cells; simpl; lia.
    + rewrite (process_row_skip _ _ _ _ _ Hkey Hk).
      destruct (k =? 27); simpl; rewrite Hout, !cells_app;
        destruct (all a); simpl; unfold cells; simpl; lia.
  - rewrite (process_row_abort _ _ _ _ _ Hkey). simpl.
    rewrite Hout, !cells_app. destruct (all a); simpl; unfold cells; simpl; lia.
Qed.

Lemma main_loop_cells (a : Args) (rows : list Row) (st : State) :
  (cells "Success!" (stdout (world (main_loop a rows st).1)) + success_count st
   = cells "Success!" (stdout (world st)) + success_count (main_loop a rows st).1)%nat
  /\ (cells "FAILED (Logged)" (stdout (world (main_loop a rows st).1)) + failed_count st
      = cells "FAILED (Logged)" (stdout (world st))
        + failed_count (main_loop a rows st).1)%nat.
Proof.
  revert st. induction rows as [|row rows IH]; intros st; [simpl; lia|].
  simpl main_loop. unfold bind.
  pose proof (process_row_cells a row st) as Hrow.
  destruct (process_row a row st) as [st1 [[]|e]]; simpl in Hrow; [|exact Hrow].
  specialize (IH st1). lia.
Qed.

End Ledger.



(** X13. The table agrees with the summary: whatever happens in the run,
    [main] prints as many ["Success!"] cells as [success_count] ends up
    with, and as many ["FAILED (Logged)"] cells as [failed_count]. *)
Theorem table_matches_counters (a : Args) (rows : list Row) (w : World) :
  cells "Success!" (stdout (world (main a rows w).1))
  = (cells "Success!" (stdout w) + success_count (main a rows w).1)%nat
  /\ cells "FAILED (Logged)" (stdout (world (main a rows w).1))
     = (cells "FAILED (Logged)" (stdout w) + failed_count (main a rows w).1)%nat.
Proof.
  destruct rows as [|r0 rows0]; [simpl; lia|].
  change (main a (r0 :: rows0) w) with (run a (r0 :: rows0) w).
  unfold run, bind.
  destruct (init_log a (mkState w 0 0)) as [st1 r1] eqn:Hi.
  assert (Hst1 : stdout (world st1) = stdout w
                 /\ failed_count st1 = 0%nat /\ success_count st1 = 0%nat).
  { revert Hi. unfold_script.
    destruct (Os.open_w_write _ _ _) as [w1 r1'] eqn:Hw.
    apply write_with_writes in Hw as (_ & _ & _ & _ & Hout).
    intros [= <- <-]. simpl in *. auto. }
  destruct Hst1 as (Hout & Hf & Hs).
  destruct r1 as [[]|e]; cbv beta iota.
  - destruct (main_loop_cells a (r0 :: rows0) st1) as [Hc1 Hc2].
    rewrite Hout, ?Hf, ?Hs in Hc1, Hc2. split; lia.
  - cbn [fst]. rewrite Hout, Hf, Hs. split; lia.
Qed.

(** ** The table: column widths and shortened paths *)

Section Display.








Lemma length_append (s t : string) :
  String.length (s +:+ t) = (String.length s + String.length t)%nat.
Proof.
  induction s as [|a s IH]; [reflexivity|]. rewrite append_cons. simpl. now rewrite IH.
Qed.


End Display.




(** ** Dates and log lines *)

Section Dates.

Lemma civil_from_days_range (days : Z) :
  1 <= (Time.civil_from_days days).1.2 <= 12
  /\ 1 <= (Time.civil_from_days days).2 <= 31.
Proof.
  unfold Time.civil_from_days. cbn [fst snd].
  set (z := days + 719468). set (era := z / 146097). set (doe := z - era * 146097).
  assert (Hdoe : 0 <= doe <= 146096).
  { subst doe era. pose proof (Z.mod_pos_bound z 146097).
    pose proof (Z.div_mod z 146097). lia. }
  clearbody doe. clear z era.
  set (yoe := (doe - doe / 1460 + doe / 36524 - doe / 146096) / 365).
  assert (Hyoe : 0 <= yoe <= 399) by (subst yoe; Z.to_euclidean_division_equations; lia).
  set (doy := doe - (365 * yoe + yoe / 4 - yoe / 100)).
  assert (Hdoy : 0 <= doy <= 365).
  { subst doy yoe. Z.to_euclidean_division_equations. lia. }
  clearbody doy.
  set (mp := (5 * doy + 2) / 153).
  assert (Hmp : 0 <= mp <= 11) by (subst mp; Z.to_euclidean_division_equations; lia).
  assert (Hd : 1 <= doy - (153 * mp + 2) / 5 + 1 <= 31).
  { subst mp. Z.to_euclidean_division_equations. lia. }
  destruct (mp <? 10) eqn:E; [apply Z.ltb_lt in E|apply Z.ltb_ge in E]; split; lia.
Qed.

(** The number of line breaks in [s]. *)
Fixpoint newlines (s : string) : nat :=
  match s with
  | EmptyString => 0
  | String c s' => ((if bool_decide (c = "010"%char) then 1 else 0) + newlines s')%nat
  end.

Lemma newlines_app (s t : string) : newlines (s +:+ t) = (newlines s + newlines t)%nat.
Proof.
  induction s as [|a s IH]; [reflexivity|]. rewrite append_cons. simpl. rewrite IH. lia.
Qed.

Lemma digit_not_newline (n : Z) : Time.digit n <> "010"%char.
Proof.
  unfold Time.digit. pose proof (Z.mod_pos_bound n 10 ltac:(lia)) as Hb.
  set (k := n mod 10) in *.
  assert (Hk : k = 0 \/ k = 1 \/ k = 2 \/ k = 3 \/ k = 4 \/ k = 5 \/ k = 6 \/ k = 7
               \/ k = 8 \/ k = 9) by lia.
  repeat (destruct Hk as [->|Hk]; [vm_compute; discriminate|]).
  subst k. rewrite Hk. vm_compute. discriminate.
Qed.

Lemma pad2_no_newline (n : Z) : newlines (Time.pad2 n) = 0%nat.
Proof.
  unfold Time.pad2. simpl.
  rewrite !bool_decide_eq_false_2 by apply digit_not_newline. reflexivity.
Qed.

Lemma pad4_no_newline (n : Z) : newlines (Time.pad4 n) = 0%nat.
Proof. unfold Time.pad4. now rewrite newlines_app, !pad2_no_newline. Qed.

Lemma date_str_shape (d : Time.datetime) :
  Time.strftime "%d.%m.%Y %H:%M:%S" d
  = Time.pad2 (Time.day d) +:+ "." +:+ Time.pad2 (Time.month d) +:+ "."
    +:+ Time.pad4 (Time.year d) +:+ " " +:+ Time.pad2 (Time.hour d) +:+ ":"
    +:+ Time.pad2 (Time.minute d) +:+ ":" +:+ Time.pad2 (Time.second d) +:+ "".
Proof. reflexivity. Qed.

Lemma date_str_no_newline (w : World) (row : Row) : newlines (date_str_of w row) = 0%nat.
Proof.
  unfold date_str_of. rewrite date_str_shape.
  rewrite !newlines_app, !pad2_no_newline, pad4_no_newline. reflexivity.
Qed.

End Dates.

(** X15. The date of a row, in any time zone, has a month from 1 to 12, a
    day from 1 to 31, an hour from 0 to 23, and minutes, seconds and
    microseconds within their ranges, so that the two-digit fields of
    [date_str] show them in full. *)
Theorem date_fields_in_range (w : World) (row : Row) :
  1 <= Time.month (date_of w row) <= 12
  /\ 1 <= Time.day (date_of w row) <= 31
  /\ 0 <= Time.hour (date_of w row) <= 23
  /\ 0 <= Time.minute (date_of w row) <= 59
  /\ 0 <= Time.second (date_of w row) <= 59
  /\ 0 <= Time.microsecond (date_of w row) <= 999999.
Proof.
  unfold Time.month, Time.day, Time.hour, Time.minute, Time.second, Time.microsecond,
    Time.us_per_s.
  destruct (civil_from_days_range (Time.seconds (date_of w row) / 86400)) as [Hm Hd].
  split; [exact Hm|]. split; [exact Hd|].
  set (s := Time.seconds (date_of w row)). set (t := Time.ticks (date_of w row)).
  repeat split; Z.to_euclidean_division_equations; lia.
Qed.

(** X16. What a failure adds to the log has one line break at its end and,
    before it, as many line breaks as the label and the reason hold: the
    record is one line exactly when neither of them has a line break. *)
Theorem log_entry_line_breaks (w : World) (row : Row) (e : exn) :
  newlines (entry_line w (row, e))
  = (newlines (label_of row) + newlines (exn_msg e) + 1)%nat
  /\ Str.endswith "010"%char (entry_line w (row, e)) = true.
Proof.
  split.
  - unfold entry_line, log_line. simpl fst. simpl snd.
    rewrite !newlines_app, date_str_no_newline. simpl. lia.
  - unfold entry_line, log_line. simpl fst. simpl snd.
    assert (Hend : forall s t, t <> EmptyString ->
                   Str.endswith "010"%char (s +:+ t) = Str.endswith "010"%char t).
    { clear. intros s t Ht. induction s as [|a s IH]; [reflexivity|].
      rewrite append_cons. simpl. rewrite IH.
      destruct (s +:+ t) eqn:Hst; [|reflexivity].
      destruct s as [|b s'];
        [change ("" +:+ t) with t in Hst; congruence
        |rewrite append_cons in Hst; discriminate]. }
    rewrite !Hend; try reflexivity; try discriminate.
    all: intros H; apply (f_equal String.length) in H;
      rewrite ?length_append in H; simpl in H; lia.
Qed.

(** ** Batch mode with sources that are missing *)

Section Mixed.













End Mixed.




